(** * The package initializer [src/__init__.py] of python_ai_ml_kaggle

    The repository is one Python file, the initializer of the package
    [src].  This development embeds

    - the text of the file, line by line ([Source]),
    - a lexer and a parser for the straight-line fragment of Python the
      file is written in ([Syntax]),
    - the execution of a module body of that fragment on a module
      namespace, with the import of the sibling module [utils] taken from
      an environment, since [utils] is not part of the sources ([Exec]),

    and proves the properties of the specification about them. *)

From Stdlib Require Import String Ascii.
From stdpp Require Import gmap strings list.

Local Open Scope string_scope.

(** ** The text of the file *)

Module Source.

(** The double quote character, a line feed, and Python's triple quote. *)
Definition dq : string := String "034"%char EmptyString.
Definition nl : ascii := "010"%char.
Definition tq : string := dq +:+ dq +:+ dq.

(** [src/__init__.py], one entry per line.  The last line is not followed
    by a line feed. *)
Definition init_py_lines : list string :=
  [ tq
  ; "Kaggle Competition Source Code Package"
  ; EmptyString
  ; "This package contains production-ready code for Kaggle competitions,"
  ; "organized into data, features, models, and utils modules."
  ; tq
  ; EmptyString
  ; "__version__ = " +:+ dq +:+ "0.1.0" +:+ dq
  ; "__author__ = " +:+ dq +:+ "Kaggle Competitor" +:+ dq
  ; EmptyString
  ; "# Import commonly used functions"
  ; "from .utils import set_seed, get_logger"
  ; EmptyString
  ; "__all__ = [" +:+ dq +:+ "set_seed" +:+ dq +:+ ", "
                  +:+ dq +:+ "get_logger" +:+ dq +:+ "]"
  ].

(** Lines joined by line feeds, none after the last one. *)
Fixpoint unlines (ls : list string) : string :=
  match ls with
  | [] => EmptyString
  | [l] => l
  | l :: ls' => l +:+ String nl (unlines ls')
  end.

(** The content of the file as one string. *)
Definition init_py : string := unlines init_py_lines.

(** Number of line feed characters of a text (what [wc -l] reports). *)
Fixpoint count_newlines (s : string) : nat :=
  match s with
  | EmptyString => 0
  | String c s' => (if Ascii.eqb c nl then 1 else 0) + count_newlines s'
  end.

(** The segments between line feeds. *)
Fixpoint split_nl (s : string) : list string :=
  match s with
  | EmptyString => [EmptyString]
  | String c s' =>
      if Ascii.eqb c nl then EmptyString :: split_nl s'
      else match split_nl s' with
           | [] => [String c EmptyString]
           | l :: ls => String c l :: ls
           end
  end.

(** The lines of a text, as Python's [str.splitlines] and editors count
    them: a line feed at the very end does not open one more line. *)
Definition lines (s : string) : list string :=
  let segs := split_nl s in
  match last segs with
  | Some EmptyString => removelast segs
  | _ => segs
  end.

End Source.

(** ** Lexer and parser for the fragment of Python the file is written in

    The fragment is what a package initializer of this shape needs: an
    optional module docstring, blank lines, comments, and three kinds of
    simple statement, each on one line and not indented:
    [NAME = "text"], [NAME = ["text", ...]] and
    [from .MODULE import NAME, ...].  Anything else (compound statements,
    calls, operators, other literals) is rejected. *)

Module Syntax.
Import Source.

#[warnings="-register-all"]
Inductive expr : Type :=
  | EStr (s : string)
  | EList (es : list expr).

Inductive stmt : Type :=
  | SDocstring (text : string)
  | SAssign (target : string) (e : expr)
  | SImportFrom (module : string) (names : list string).

Inductive token : Type :=
  | TName (s : string)
  | TStr (s : string)
  | TOp (c : ascii).

Definition in_range (lo hi : nat) (c : ascii) : bool :=
  let n := nat_of_ascii c in (lo <=? n)%nat && (n <=? hi)%nat.

Definition is_space (c : ascii) : bool :=
  Ascii.eqb c " "%char || Ascii.eqb c "009"%char.

Definition is_ident_start (c : ascii) : bool :=
  in_range 65 90 c || in_range 97 122 c || Ascii.eqb c "_"%char.

Definition is_ident_char (c : ascii) : bool :=
  is_ident_start c || in_range 48 57 c.

Definition snoc (s : string) (c : ascii) : string := s +:+ String c EmptyString.

Inductive lex_mode : Type :=
  | LIdle
  | LName (acc : string)
  | LStr (acc : string).

(** One line to tokens.  A string literal is written between double
    quotes and has no escapes; [#] starts a comment that runs to the end
    of the line. *)
Fixpoint lex (m : lex_mode) (s : string) : option (list token) :=
  match s with
  | EmptyString =>
      match m with
      | LIdle => Some []
      | LName acc => Some [TName acc]
      | LStr _ => None
      end
  | String c s' =>
      let idle (_ : unit) :=
        if is_space c then lex LIdle s'
        else if Ascii.eqb c "#"%char then Some []
        else if Ascii.eqb c "034"%char then lex (LStr EmptyString) s'
        else if is_ident_start c then lex (LName (String c EmptyString)) s'
        else cons (TOp c) <$> lex LIdle s' in
      match m with
      | LIdle => idle tt
      | LName acc =>
          if is_ident_char c then lex (LName (snoc acc c)) s'
          else cons (TName acc) <$> idle tt
      | LStr acc =>
          if Ascii.eqb c "034"%char then cons (TStr acc) <$> lex LIdle s'
          else if Ascii.eqb c "\"%char then None
          else lex (LStr (snoc acc c)) s'
      end
  end.

Definition tokens (line : string) : option (list token) := lex LIdle line.

(** Python's keywords: none of them is a name. *)
Definition keywords : list string :=
  [ "False"; "None"; "True"; "and"; "as"; "assert"; "async"; "await"
  ; "break"; "class"; "continue"; "def"; "del"; "elif"; "else"; "except"
  ; "finally"; "for"; "from"; "global"; "if"; "import"; "in"; "is"
  ; "lambda"; "nonlocal"; "not"; "or"; "pass"; "raise"; "return"; "try"
  ; "while"; "with"; "yield" ].

(** The keywords that open a compound statement or transfer control. *)
Definition control_keywords : list string :=
  [ "if"; "elif"; "else"; "for"; "while"; "try"; "except"; "finally"
  ; "with"; "match"; "case"; "def"; "class"; "lambda"; "async"; "await"
  ; "return"; "yield"; "raise"; "break"; "continue"; "assert" ].

Definition mem (x : string) (l : list string) : bool :=
  existsb (String.eqb x) l.

Definition is_name (x : string) : bool := negb (mem x keywords).

Definition is_op (c : ascii) (t : token) : bool :=
  match t with TOp c' => Ascii.eqb c c' | _ => false end.

(** ["a", "b", ... ]]: the items of a list display after its bracket. *)
Fixpoint parse_items (ts : list token) : option (list expr) :=
  match ts with
  | [TOp c] => if Ascii.eqb c "]"%char then Some [] else None
  | TStr s :: ts' =>
      match ts' with
      | [TOp c] => if Ascii.eqb c "]"%char then Some [EStr s] else None
      | TOp c :: ts'' =>
          if Ascii.eqb c ","%char then cons (EStr s) <$> parse_items ts''
          else None
      | _ => None
      end
  | _ => None
  end.

(** [a, b, ...]: the names of an import list. *)
Fixpoint parse_names (ts : list token) : option (list string) :=
  match ts with
  | [TName x] => if is_name x then Some [x] else None
  | TName x :: TOp c :: ts' =>
      if is_name x && Ascii.eqb c ","%char then cons x <$> parse_names ts'
      else None
  | _ => None
  end.

(** One simple statement from the tokens of its line. *)
Definition parse_stmt (ts : list token) : option stmt :=
  match ts with
  | TName x :: TOp c :: rest =>
      if is_name x && Ascii.eqb c "="%char then
        match rest with
        | [TStr s] => Some (SAssign x (EStr s))
        | TOp b :: items =>
            if Ascii.eqb b "["%char
            then (fun es => SAssign x (EList es)) <$> parse_items items
            else None
        | _ => None
        end
      else if String.eqb x "from" && Ascii.eqb c "."%char then
        match rest with
        | TName m :: TName i :: names =>
            if is_name m && String.eqb i "import"
            then SImportFrom m <$> parse_names names
            else None
        | _ => None
        end
      else None
  | _ => None
  end.

(** *** Layout: which physical line is what *)

Fixpoint lstrip (s : string) : string :=
  match s with
  | String c s' => if is_space c then lstrip s' else s
  | EmptyString => s
  end.

Definition is_blank (l : string) : bool :=
  match lstrip l with EmptyString => true | _ => false end.

Definition is_comment (l : string) : bool := String.prefix "#" (lstrip l).

Definition has_tq (s : string) : bool :=
  match String.index 0 tq s with Some _ => true | None => false end.

Definition drop (n : nat) (s : string) : string :=
  String.substring n (String.length s - n) s.

Inductive line_kind : Type := KDocstring | KBlank | KComment | KCode.

(** Where the scan is: before the first statement, inside the module
    docstring, or after the first statement. *)
Inductive scan_state : Type := AtStart | InDocstring | InBody.

(** A triple-quoted string that is the first statement of the file is the
    module docstring; its lines run from the opening to the closing triple
    quote, both included. *)
Fixpoint layout (st : scan_state) (ls : list string) : list line_kind :=
  match ls with
  | [] => []
  | l :: ls' =>
      match st with
      | InDocstring =>
          KDocstring :: layout (if has_tq l then InBody else InDocstring) ls'
      | _ =>
          if is_blank l then KBlank :: layout st ls'
          else if is_comment l then KComment :: layout st ls'
          else
            match st with
            | AtStart =>
                if String.prefix tq l
                then KDocstring ::
                     layout (if has_tq (drop 3 l) then InBody else InDocstring) ls'
                else KCode :: layout InBody ls'
            | _ => KCode :: layout InBody ls'
            end
      end
  end.

Definition laid_out (text : string) : list (line_kind * string) :=
  let ls := lines text in zip (layout AtStart ls) ls.

(** What a statement is for in a package initializer. *)
Inductive role : Type := RMetadata | RImport | RExportList | ROther.

Definition is_dunder (x : string) : bool :=
  String.prefix "__" x && String.eqb (drop (String.length x - 2) x) "__"
  && (5 <=? String.length x)%nat.

Definition stmt_role (s : stmt) : role :=
  match s with
  | SDocstring _ => ROther
  | SImportFrom _ _ => RImport
  | SAssign x e =>
      if String.eqb x "__all__" then RExportList
      else match e with
           | EStr _ => if is_dunder x then RMetadata else ROther
           | EList _ => ROther
           end
  end.

Inductive line_class : Type :=
  | CDocstring
  | CBlank
  | CComment
  | CStmt (r : role)
  | CUnparsed.

(** A statement starts in the first column of its line. *)
Definition parse_line (l : string) : option stmt :=
  match l with
  | String c _ => if is_space c then None else tokens l ≫= parse_stmt
  | EmptyString => None
  end.

Definition class_of (kl : line_kind * string) : line_class :=
  match kl.1 with
  | KDocstring => CDocstring
  | KBlank => CBlank
  | KComment => CComment
  | KCode => match parse_line kl.2 with
             | Some s => CStmt (stmt_role s)
             | None => CUnparsed
             end
  end.

Definition classify (text : string) : list line_class :=
  map class_of (laid_out text).

Definition role_eqb (a b : role) : bool :=
  match a, b with
  | RMetadata, RMetadata | RImport, RImport
  | RExportList, RExportList | ROther, ROther => true
  | _, _ => false
  end.

Definition class_eqb (a b : line_class) : bool :=
  match a, b with
  | CDocstring, CDocstring | CBlank, CBlank | CComment, CComment
  | CUnparsed, CUnparsed => true
  | CStmt r, CStmt r' => role_eqb r r'
  | _, _ => false
  end.

(** How many lines of the text are of class [c]. *)
Definition count_class (c : line_class) (text : string) : nat :=
  length (List.filter (class_eqb c) (classify text)).

(** *** The module body *)

Definition is_doc_line (kl : line_kind * string) : bool :=
  match kl.1 with KDocstring => true | _ => false end.

(** The value of the docstring: what stands between the two triple
    quotes.  Escapes are not part of the fragment. *)
Definition doc_text (ls : list string) : option string :=
  let t := unlines ls in
  let n := String.length t in
  let inner := String.substring 3 (n - 6) t in
  if (6 <=? n)%nat && String.prefix tq t && String.eqb (drop (n - 3) t) tq
     && negb (has_tq inner)
     && match String.index 0 "\" inner with None => true | Some _ => false end
  then Some inner else None.

Fixpoint parse_code (ks : list (line_kind * string)) : option (list stmt) :=
  match ks with
  | [] => Some []
  | kl :: r =>
      match kl.1 with
      | KCode =>
          match parse_line kl.2 with
          | Some s => cons s <$> parse_code r
          | None => None
          end
      | _ => parse_code r
      end
  end.

(** The statements of a file of the fragment, in order; [None] when the
    file is not in the fragment. *)
Definition parse (text : string) : option (list stmt) :=
  let ks := laid_out text in
  match parse_code ks with
  | None => None
  | Some body =>
      match List.filter is_doc_line ks with
      | [] => Some body
      | ds => (fun d => SDocstring d :: body) <$> doc_text (map snd ds)
      end
  end.

(** All the tokens of the code lines of a text. *)
Definition code_tokens (text : string) : list token :=
  flat_map (fun kl : line_kind * string =>
              match kl.1 with
              | KCode => default [] (tokens kl.2)
              | _ => []
              end) (laid_out text).

Definition is_control (t : token) : bool :=
  match t with TName x => mem x control_keywords | _ => false end.

Definition is_import_stmt (s : stmt) : bool :=
  match s with SImportFrom _ _ => true | _ => false end.

End Syntax.

(** ** Executing a module body

    A module body runs on the namespace of its module: a dictionary from
    names to objects.  Strings and lists are kept by value; any other
    object, a function or a module, is kept by its address: two bindings
    that hold the same address hold the very same object. *)

Module Exec.
Import Source Syntax.

#[warnings="-register-all"]
Inductive value : Type :=
  | VStr (s : string)
  | VList (items : list value)
  | VObject (addr : N)
  | VModule (addr : N).



(** What asking a module for a name it does not define can give: an
    object, nothing, or an exception other than the one that says that
    there is nothing. *)
Inductive lookup : Type :=
  | Found (v : value)
  | Missing
  | Broken (what : string).

(** A loaded module, as a [from ... import] sees it: its identity, the
    names its own code defines, whether it is a package, what its
    module-level [__getattr__] answers ([Missing] everywhere when it has
    none), and, for a package, what importing a submodule of a given name
    yields ([Missing] when there is no such submodule, [Broken] when the
    code of the submodule raises). *)
Record module_obj : Type := {
  mod_addr : N;
  mod_dict : gmap string value;
  mod_is_package : bool;
  mod_getattr : string -> lookup;
  mod_submodule : string -> lookup
}.

(** A module that is one file and has no [__getattr__]. *)
Definition plain_module (addr : N) (dict : gmap string value) : module_obj :=
  {| mod_addr := addr; mod_dict := dict; mod_is_package := false;
     mod_getattr := fun _ => Missing; mod_submodule := fun _ => Missing |}.

Inductive exn : Type :=
  | ModuleNotFoundError (name : string)
  | ImportError (name : string) (from : string)
  | Propagated (what : string).

(** The names that the statements of the initializer, and the loading of
    [utils] itself, bind. *)
Definition own_names : list string :=
  [ "__doc__"; "__version__"; "__author__"; "utils";
    "set_seed"; "get_logger"; "__all__" ].

Definition apart (s : gmap string N) : bool :=
  forallb (fun x => match s !! x with None => true | Some _ => false end)
          own_names.

(** Loading a module runs its code, and the imports in that code load
    other siblings, each of which gets bound under its name in the
    namespace of the package.  [siblings] are those bindings.  A sibling
    is taken not to bear one of the [own_names]. *)
Record loading : Type := {
  siblings : gmap string N;
  siblings_apart : Is_true (apart siblings)
}.

(** What loading a sibling module yields.  The sibling modules are not
    part of the sources, so they come from the environment: a module may
    be missing; its own top-level code may raise, after it has loaded
    some siblings; or it is there, loaded just now ([fresh]) or found
    already loaded.  The environment answers for the sibling of the
    package that the namespace belongs to: resolving the dot of the
    relative name is the business of the import system. *)
Inductive load_result : Type :=
  | NotFound
  | BodyRaised (l : loading) (what : string)
  | Loaded (l : loading) (fresh : bool) (m : module_obj).

Definition env : Type := string -> load_result.

(** What a run does, in order. *)
Inductive event : Type :=
  | EvStore (x : string) (v : value)
  | EvImport (module : string) (names : list string).

Record state : Type := {
  globals : gmap string value;
  trace : list event
}.

Inductive outcome (A : Type) : Type :=
  | Ok (a : A)
  | Raise (e : exn).
Arguments Ok {A} a.
Arguments Raise {A} e.

(** State and exceptions: an exception leaves the state as it is at the
    point where it is raised, as in Python. *)
Definition M (A : Type) : Type := state -> outcome A * state.

Definition ret {A} (a : A) : M A := fun st => (Ok a, st).

Definition raise {A} (e : exn) : M A := fun st => (Raise e, st).

Definition bind {A B} (c : M A) (k : A -> M B) : M B :=
  fun st =>
    match c st with
    | (Ok a, st') => k a st'
    | (Raise e, st') => (Raise e, st')
    end.

Notation "c1 ;; c2" := (bind c1 (fun _ => c2))
  (at level 100, right associativity).

Definition emit (ev : event) : M unit :=
  fun st => (Ok tt, {| globals := globals st; trace := trace st ++ [ev] |}).

(** [x = v] at module level. *)
Definition store (x : string) (v : value) : M unit :=
  fun st => (Ok tt, {| globals := <[x := v]> (globals st);
                       trace := trace st ++ [EvStore x v] |}).

Fixpoint eval (e : expr) : value :=
  match e with
  | EStr s => VStr s
  | EList es => VList (map eval es)
  end.

(** A namespace with the siblings of a loading bound in it. *)
Definition loaded_into (l : loading) (g : gmap string value)
  : gmap string value :=
  (VModule <$> siblings l) ∪ g.

(** The siblings are bound by the imports of the code that is being
    loaded, not by a statement of the initializer. *)
Definition bind_siblings (l : loading) : M unit :=
  fun st => (Ok tt, {| globals := loaded_into l (globals st);
                       trace := trace st |}).

Definition set_attr (x : string) (v : value) (m : module_obj) : module_obj :=
  {| mod_addr := mod_addr m; mod_dict := <[x := v]> (mod_dict m);
     mod_is_package := mod_is_package m; mod_getattr := mod_getattr m;
     mod_submodule := mod_submodule m |}.

(** Attribute access on a module: its namespace first, its
    [__getattr__] otherwise. *)
Definition get_attr (m : module_obj) (x : string) : lookup :=
  match mod_dict m !! x with
  | Some v => Found v
  | None => mod_getattr m x
  end.

(** The first pass of a [from ... import] over the names, before any of
    them is bound: a name that the module does not have is tried as a
    submodule, which on success becomes an attribute of the module.  That
    there is no such submodule is not an error here; an exception of the
    code of the submodule, or of [__getattr__], is. *)
Fixpoint import_submodules (m : module_obj) (names : list string)
  : module_obj + string :=
  match names with
  | [] => inl m
  | x :: rest =>
      match get_attr m x with
      | Found _ => import_submodules m rest
      | Broken what => inr what
      | Missing =>
          match mod_submodule m x with
          | Found v => import_submodules (set_attr x v m) rest
          | Missing => import_submodules m rest
          | Broken what => inr what
          end
      end
  end.

(** Only a package has submodules. *)
Definition handle_fromlist (m : module_obj) (names : list string)
  : module_obj + string :=
  if mod_is_package m then import_submodules m names else inl m.

(** The second pass: the names are looked up and bound one after the
    other, so that a name that cannot be had raises after the names
    before it have been bound. *)
Fixpoint import_names (m : module_obj) (from : string) (names : list string)
  : M unit :=
  match names with
  | [] => ret tt
  | x :: rest =>
      match get_attr m x with
      | Found v => store x v ;; import_names m from rest
      | Missing => raise (ImportError x from)
      | Broken what => raise (Propagated what)
      end
  end.

(** [from .m import names] in the initializer of a package: the sibling
    is loaded, which binds it under its own name in the namespace of the
    package when it was not loaded before, then its names are
    imported. *)
Definition import_from (E : env) (m : string) (names : list string) : M unit :=
  emit (EvImport m names) ;;
  match E m with
  | NotFound => raise (ModuleNotFoundError m)
  | BodyRaised l what => bind_siblings l ;; raise (Propagated what)
  | Loaded l fresh mo =>
      bind_siblings l ;;
      (if fresh then store m (VModule (mod_addr mo)) else ret tt) ;;
      match handle_fromlist mo names with
      | inr what => raise (Propagated what)
      | inl mo' => import_names mo' m names
      end
  end.

Definition exec_stmt (E : env) (s : stmt) : M unit :=
  match s with
  | SDocstring text => store "__doc__" (VStr text)
  | SAssign x e => store x (eval e)
  | SImportFrom m names => import_from E m names
  end.

Fixpoint exec_block (E : env) (b : list stmt) : M unit :=
  match b with
  | [] => ret tt
  | s :: rest => exec_stmt E s ;; exec_block E rest
  end.

(** *** The initializer *)

Definition docstring : string :=
  unlines [ EmptyString
          ; "Kaggle Competition Source Code Package"
          ; EmptyString
          ; "This package contains production-ready code for Kaggle competitions,"
          ; "organized into data, features, models, and utils modules."
          ; EmptyString ].

(** The statements of [src/__init__.py]. *)
Definition package_body : list stmt :=
  [ SDocstring docstring
  ; SAssign "__version__" (EStr "0.1.0")
  ; SAssign "__author__" (EStr "Kaggle Competitor")
  ; SImportFrom "utils" ["set_seed"; "get_logger"]
  ; SAssign "__all__" (EList [EStr "set_seed"; EStr "get_logger"])
  ].

Definition package_init (E : env) : M unit := exec_block E package_body.

(** Importing the package: the body runs on the namespace [g0] that the
    import system has prepared for the module. *)
Definition import_package (E : env) (g0 : gmap string value)
  : outcome unit * state :=
  package_init E {| globals := g0; trace := [] |}.

Definition succeeds (r : outcome unit * state) : Prop := r.1 = Ok tt.


Definition namespace (r : outcome unit * state) : gmap string value :=
  globals r.2.

Definition is_import_event (ev : event) : bool :=
  match ev with EvImport _ _ => true | EvStore _ _ => false end.

(** *** Environments used as examples *)

Definition no_siblings : loading :=
  {| siblings := ∅; siblings_apart := I |}.

(** Loading has loaded the sibling [data] on the way. *)
Definition with_data : loading :=
  {| siblings := {[ "data" := 7%N ]}; siblings_apart := I |}.

Definition utils_full : module_obj :=
  plain_module 1 {[ "set_seed" := VObject 2; "get_logger" := VObject 3 ]}.



(** [utils] that defines neither name and answers for both through its
    [__getattr__]. *)
Definition utils_getattr : module_obj :=
  {| mod_addr := 1; mod_dict := ∅; mod_is_package := false;
     mod_getattr := fun x => if String.eqb x "set_seed" then Found (VObject 2)
                             else if String.eqb x "get_logger"
                                  then Found (VObject 3) else Missing;
     mod_submodule := fun _ => Missing |}.

(** [utils] as a package whose two names are submodules of it. *)
Definition utils_package : module_obj :=
  {| mod_addr := 1; mod_dict := ∅; mod_is_package := true;
     mod_getattr := fun _ => Missing;
     mod_submodule := fun x => if String.eqb x "set_seed" then Found (VModule 2)
                               else if String.eqb x "get_logger"
                                    then Found (VModule 3) else Missing |}.

(** [utils] as a package that defines [set_seed] itself and whose
    submodule [get_logger] raises when it is imported. *)
Definition utils_broken_submodule : module_obj :=
  {| mod_addr := 1; mod_dict := {[ "set_seed" := VObject 2 ]};
     mod_is_package := true; mod_getattr := fun _ => Missing;
     mod_submodule := fun x => if String.eqb x "get_logger"
                               then Broken "ValueError" else Missing |}.

Definition env_of (r : load_result) : env :=
  fun m => if String.eqb m "utils" then r else NotFound.

Definition env_ok : env := env_of (Loaded no_siblings true utils_full).
Definition env_missing : env := env_of NotFound.

(** [utils] found already loaded, having loaded [data] on the way. *)
Definition env_cached : env := env_of (Loaded with_data false utils_full).

(** A namespace as a reload finds it: names left by an earlier run and
    by the user of the package. *)
Definition used_namespace : gmap string value :=
  {[ "__doc__" := VStr "old"; "__version__" := VStr "0.0.9";
     "helper" := VObject 5 ]}.

(** *** Vocabulary of the statements about the initializer *)

Definition imported_names : list string := ["set_seed"; "get_logger"].

Definition unresolved (E : env) : Prop := E "utils" = NotFound.






Definition export_list : value := VList [VStr "set_seed"; VStr "get_logger"].

(** The namespace after the docstring and the two metadata assignments. *)
Definition with_metadata (g0 : gmap string value) : gmap string value :=
  <["__author__" := VStr "Kaggle Competitor"]>
    (<["__version__" := VStr "0.1.0"]> (<["__doc__" := VStr docstring]> g0)).

(** The namespace once the sibling has been loaded. *)
Definition with_utils (l : loading) (fresh : bool) (m : module_obj)
    (g0 : gmap string value) : gmap string value :=
  if fresh
  then <["utils" := VModule (mod_addr m)]> (loaded_into l (with_metadata g0))
  else loaded_into l (with_metadata g0).

(** What every run starts with: the three stores and the import. *)
Definition trace_to_import : list event :=
  [ EvStore "__doc__" (VStr docstring)
  ; EvStore "__version__" (VStr "0.1.0")
  ; EvStore "__author__" (VStr "Kaggle Competitor")
  ; EvImport "utils" ["set_seed"; "get_logger"] ].

(** The trace once the sibling has been loaded. *)
Definition trace_to_names (fresh : bool) (m : module_obj) : list event :=
  trace_to_import ++
  (if fresh then [EvStore "utils" (VModule (mod_addr m))] else []).


Definition bound_names : gset string :=
  {[ "__doc__"; "__version__"; "__author__"; "utils";
     "set_seed"; "get_logger"; "__all__" ]}.



(** The siblings that get bound while [utils] loads. *)
Definition sibling_names (E : env) : gset string :=
  match E "utils" with
  | NotFound => ∅
  | BodyRaised l _ => dom (siblings l)
  | Loaded l _ _ => dom (siblings l)
  end.

(** The ways a run of the initializer can go, by what loading [utils]
    yields and by what the two names give. *)
Inductive run_case (E : env) (g0 : gmap string value)
  : outcome unit * state -> Prop :=
  | case_not_found :
      E "utils" = NotFound ->
      run_case E g0
        (Raise (ModuleNotFoundError "utils"),
         {| globals := with_metadata g0; trace := trace_to_import |})
  | case_body_raised l what :
      E "utils" = BodyRaised l what ->
      run_case E g0
        (Raise (Propagated what),
         {| globals := loaded_into l (with_metadata g0);
            trace := trace_to_import |})
  | case_submodule_raised l fresh m what :
      E "utils" = Loaded l fresh m ->
      handle_fromlist m imported_names = inr what ->
      run_case E g0
        (Raise (Propagated what),
         {| globals := with_utils l fresh m g0;
            trace := trace_to_names fresh m |})
  | case_first_missing l fresh m m' :
      E "utils" = Loaded l fresh m ->
      handle_fromlist m imported_names = inl m' ->
      get_attr m' "set_seed" = Missing ->
      run_case E g0
        (Raise (ImportError "set_seed" "utils"),
         {| globals := with_utils l fresh m g0;
            trace := trace_to_names fresh m |})
  | case_first_broken l fresh m m' what :
      E "utils" = Loaded l fresh m ->
      handle_fromlist m imported_names = inl m' ->
      get_attr m' "set_seed" = Broken what ->
      run_case E g0
        (Raise (Propagated what),
         {| globals := with_utils l fresh m g0;
            trace := trace_to_names fresh m |})
  | case_second_missing l fresh m m' v1 :
      E "utils" = Loaded l fresh m ->
      handle_fromlist m imported_names = inl m' ->
      get_attr m' "set_seed" = Found v1 ->
      get_attr m' "get_logger" = Missing ->
      run_case E g0
        (Raise (ImportError "get_logger" "utils"),
         {| globals := <["set_seed" := v1]> (with_utils l fresh m g0);
            trace := trace_to_names fresh m ++ [EvStore "set_seed" v1] |})
  | case_second_broken l fresh m m' v1 what :
      E "utils" = Loaded l fresh m ->
      handle_fromlist m imported_names = inl m' ->
      get_attr m' "set_seed" = Found v1 ->
      get_attr m' "get_logger" = Broken what ->
      run_case E g0
        (Raise (Propagated what),
         {| globals := <["set_seed" := v1]> (with_utils l fresh m g0);
            trace := trace_to_names fresh m ++ [EvStore "set_seed" v1] |})
  | case_ok l fresh m m' v1 v2 :
      E "utils" = Loaded l fresh m ->
      handle_fromlist m imported_names = inl m' ->
      get_attr m' "set_seed" = Found v1 ->
      get_attr m' "get_logger" = Found v2 ->
      run_case E g0
        (Ok tt,
         {| globals := <["__all__" := export_list]>
                         (<["get_logger" := v2]>
                            (<["set_seed" := v1]> (with_utils l fresh m g0)));
            trace := trace_to_names fresh m ++
                     [ EvStore "set_seed" v1
                     ; EvStore "get_logger" v2
                     ; EvStore "__all__" export_list ] |}).

End Exec.

(** ** Properties *)

Module Spec.
Import Source Syntax Exec.

Local Set Warnings "-clear-no-such-hyp".

(** *** The ways a run can go *)

Ltac run_body :=
  unfold import_package, package_init, package_body;
  cbv [exec_block exec_stmt import_from import_names bind store emit raise
       ret eval globals trace bind_siblings].

Lemma run_cases (E : env) (g0 : gmap string value) :
  run_case E g0 (import_package E g0).
Proof.
  run_body.
  destruct (E "utils") as [|l what|l fresh m] eqn:HE.
  - by constructor.
  - by apply case_body_raised.
  - fold imported_names.
    destruct (handle_fromlist m imported_names) as [m'|what] eqn:Hh.
    + destruct (get_attr m' "set_seed") as [v1| |what] eqn:H1.
      * destruct (get_attr m' "get_logger") as [v2| |what] eqn:H2;
          destruct fresh;
          [ eapply (case_ok E g0 l true m m' v1 v2)
          | eapply (case_ok E g0 l false m m' v1 v2)
          | eapply (case_second_missing E g0 l true m m' v1)
          | eapply (case_second_missing E g0 l false m m' v1)
          | eapply (case_second_broken E g0 l true m m' v1 what)
          | eapply (case_second_broken E g0 l false m m' v1 what) ];
          eauto.
      * destruct fresh;
          [ eapply (case_first_missing E g0 l true m m')
          | eapply (case_first_missing E g0 l false m m') ]; eauto.
      * destruct fresh;
          [ eapply (case_first_broken E g0 l true m m' what)
          | eapply (case_first_broken E g0 l false m m' what) ]; eauto.
    + destruct fresh;
        [ eapply (case_submodule_raised E g0 l true m what)
        | eapply (case_submodule_raised E g0 l false m what) ]; eauto.
Qed.

(** *** Lookups in the namespaces of the cases *)

Lemma siblings_own (l : loading) (x : string) :
  x ∈ own_names -> siblings l !! x = None.
Proof.
  destruct l as [s Hs]. cbn [siblings]. unfold apart, own_names in *.
  cbn [forallb] in Hs.
  rewrite !elem_of_cons, elem_of_nil.
  intros Hx.
  repeat match type of Hs with
         | Is_true (_ && _) => apply andb_True in Hs; destruct Hs as [? Hs]
         end.
  decompose [or] Hx; subst; try contradiction;
    match goal with
    | |- ?s !! ?k = None => destruct (s !! k); [contradiction | reflexivity]
    end.
Qed.

Lemma loaded_into_own (l : loading) (g : gmap string value) (x : string) :
  x ∈ own_names -> loaded_into l g !! x = g !! x.
Proof.
  intros Hx. unfold loaded_into.
  apply lookup_union_r. rewrite lookup_fmap, (siblings_own l x Hx). reflexivity.
Qed.

Lemma own_doc : "__doc__" ∈ own_names.
Proof. unfold own_names. set_solver. Qed.
Lemma own_version : "__version__" ∈ own_names.
Proof. unfold own_names. set_solver. Qed.
Lemma own_author : "__author__" ∈ own_names.
Proof. unfold own_names. set_solver. Qed.
Lemma own_utils : "utils" ∈ own_names.
Proof. unfold own_names. set_solver. Qed.
Lemma own_set_seed : "set_seed" ∈ own_names.
Proof. unfold own_names. set_solver. Qed.
Lemma own_get_logger : "get_logger" ∈ own_names.
Proof. unfold own_names. set_solver. Qed.
Lemma own_all : "__all__" ∈ own_names.
Proof. unfold own_names. set_solver. Qed.

Create HintDb own.

#[local] Hint Resolve own_doc own_version own_author own_utils own_set_seed
  own_get_logger own_all : own.

Lemma with_utils_own (l : loading) (fresh : bool) (m : module_obj)
    (g0 : gmap string value) (x : string) :
  x ∈ own_names -> x <> "utils" ->
  with_utils l fresh m g0 !! x = with_metadata g0 !! x.
Proof.
  intros Hx Hne. unfold with_utils. destruct fresh.
  - rewrite lookup_insert_ne by done. by apply loaded_into_own.
  - by apply loaded_into_own.
Qed.

Lemma version_after_metadata (g0 : gmap string value) :
  with_metadata g0 !! "__version__" = Some (VStr "0.1.0").
Proof. unfold with_metadata. by simplify_map_eq. Qed.

Lemma author_after_metadata (g0 : gmap string value) :
  with_metadata g0 !! "__author__" = Some (VStr "Kaggle Competitor").
Proof. unfold with_metadata. by simplify_map_eq. Qed.

Lemma doc_after_metadata (g0 : gmap string value) :
  with_metadata g0 !! "__doc__" = Some (VStr docstring).
Proof. unfold with_metadata. by simplify_map_eq. Qed.

Lemma metadata_other (g0 : gmap string value) (x : string) :
  x <> "__doc__" -> x <> "__version__" -> x <> "__author__" ->
  with_metadata g0 !! x = g0 !! x.
Proof. intros. unfold with_metadata. by simplify_map_eq. Qed.

(** Lookup of one of the own names in the namespace of any case: the
    inserts are gone through, the siblings are skipped. *)
Ltac own_lookup :=
  cbn [fst snd globals trace];
  repeat first
    [ rewrite lookup_insert_eq
    | rewrite lookup_insert_ne by done
    | rewrite with_utils_own by (auto with own; done)
    | rewrite loaded_into_own by auto with own
    | rewrite version_after_metadata
    | rewrite author_after_metadata
    | rewrite doc_after_metadata
    | rewrite metadata_other by done ].

(** *** What can be had from a module, and what the two passes give *)




(** The two passes on three shapes of [utils]: names answered by a
    [__getattr__] and names that are submodules import although the
    namespace of [utils] defines neither; a submodule that raises makes
    the import raise before any name is bound. *)
Example getattr_utils_imports :
  mod_dict utils_getattr !! "set_seed" = None /\
  import_package (env_of (Loaded no_siblings true utils_getattr)) ∅
  = import_package env_ok ∅.
Proof. split; vm_compute; reflexivity. Qed.

Example package_utils_imports :
  mod_dict utils_package !! "set_seed" = None /\
  succeeds (import_package (env_of (Loaded no_siblings true utils_package)) ∅) /\
  namespace (import_package (env_of (Loaded no_siblings true utils_package)) ∅)
    !! "set_seed" = Some (VModule 2).
Proof. repeat split; vm_compute; reflexivity. Qed.

Example broken_submodule_binds_nothing :
  mod_dict utils_broken_submodule !! "set_seed" = Some (VObject 2) /\
  (import_package (env_of (Loaded no_siblings true utils_broken_submodule)) ∅).1
  = Raise (Propagated "ValueError") /\
  namespace
    (import_package (env_of (Loaded no_siblings true utils_broken_submodule)) ∅)
    !! "set_seed" = None.
Proof. repeat split; vm_compute; reflexivity. Qed.

Example cached_utils_is_not_bound :
  succeeds (import_package env_cached ∅) /\
  namespace (import_package env_cached ∅) !! "utils" = None /\
  namespace (import_package env_cached ∅) !! "data" = Some (VModule 7).
Proof. repeat split; vm_compute; reflexivity. Qed.

(** Two hypotheses on what loading [utils] yields: they agree, or the
    goal is absurd. *)
Ltac same_load :=
  repeat match goal with
  | H1 : ?E "utils" = _, H2 : ?E "utils" = _ |- _ =>
      rewrite H1 in H2;
      first [ discriminate H2 | injection H2 as <- <- <-
            | injection H2 as <- <- | clear H2 ]
  end.

(** C3: the attribute [__version__] of the package is the string
    "0.1.0"; it is assigned before the import, so it holds however the
    import ends. *)
Theorem version_is_0_1_0 (E : env) (g0 : gmap string value) :
  namespace (import_package E g0) !! "__version__" = Some (VStr "0.1.0").
Proof.
  unfold namespace.
  destruct (run_cases E g0); own_lookup; reflexivity.
Qed.

(** C4: the attribute [__author__] of the package is the string
    "Kaggle Competitor", however the import ends. *)
Theorem author_is_kaggle_competitor (E : env) (g0 : gmap string value) :
  namespace (import_package E g0) !! "__author__"
  = Some (VStr "Kaggle Competitor").
Proof.
  unfold namespace.
  destruct (run_cases E g0); own_lookup; reflexivity.
Qed.

(** C2: after a successful import the export list [__all__] is the list
    of the two strings "set_seed" and "get_logger", in that order, and
    nothing else. *)
Theorem export_list_is_exact (E : env) (g0 : gmap string value) :
  succeeds (import_package E g0) ->
  namespace (import_package E g0) !! "__all__"
  = Some (VList [VStr "set_seed"; VStr "get_logger"]).
Proof.
  unfold succeeds, namespace.
  destruct (run_cases E g0); cbn [fst snd globals]; try discriminate.
  intros _. apply lookup_insert_eq.
Qed.

Lemma export_list_is_exact_witness :
  succeeds (import_package env_ok ∅) /\
  namespace (import_package env_ok ∅) !! "__all__"
  = Some (VList [VStr "set_seed"; VStr "get_logger"]).
Proof.
  split; [vm_compute; reflexivity |].
  apply export_list_is_exact. vm_compute. reflexivity.
Defined.









(** C7, as stated, fails: the file does not have 13 lines of which 8
    belong to the docstring. *)
Lemma thirteen_lines_eight_docstring_fails :
  ~ (length (lines init_py) = 13 /\
     count_class CDocstring init_py = 8 /\
     count_class (CStmt RMetadata) init_py = 2 /\
     count_class (CStmt RImport) init_py = 1 /\
     count_class (CStmt RExportList) init_py = 1).
Proof. intros (_ & H & _). vm_compute in H. discriminate H. Qed.

(** C7, amended: the file has 14 lines (13 line feeds, the last line is
    not terminated): 6 of the docstring, 3 blank, 1 comment, 2 metadata
    assignments, 1 import and 1 assignment of the export list. *)
Theorem file_line_budget :
  length (lines init_py) = 14 /\
  count_newlines init_py = 13 /\
  count_class CDocstring init_py = 6 /\
  count_class CBlank init_py = 3 /\
  count_class CComment init_py = 1 /\
  count_class (CStmt RMetadata) init_py = 2 /\
  count_class (CStmt RImport) init_py = 1 /\
  count_class (CStmt RExportList) init_py = 1 /\
  count_class (CStmt ROther) init_py = 0 /\
  count_class CUnparsed init_py = 0.
Proof. vm_compute. repeat split. Qed.

(** C8: the file is straight-line code with one import statement: it
    parses to the five statements of [package_body], none of its tokens
    is a control keyword or the parenthesis of a call, and every run,
    whatever the environment, performs that one import, once. *)
Theorem one_import_no_control_flow :
  parse init_py = Some package_body /\
  length (List.filter is_import_stmt package_body) = 1 /\
  forallb (fun t => negb (is_control t || is_op "("%char t))
          (code_tokens init_py) = true /\
  forall (E : env) (g0 : gmap string value),
    List.filter is_import_event (trace (import_package E g0).2)
    = [EvImport "utils" ["set_seed"; "get_logger"]].
Proof.
  split; [vm_compute; reflexivity |].
  split; [reflexivity |].
  split; [vm_compute; reflexivity |].
  intros E g0. destruct (run_cases E g0);
    try match goal with f : bool |- _ => destruct f end; reflexivity.
Qed.







(** *** Further properties of the initializer *)

Lemma lookup_loaded_into (l : loading) (g : gmap string value) (x : string) :
  loaded_into l g !! x
  = match siblings l !! x with
    | Some a => Some (VModule a)
    | None => g !! x
    end.
Proof.
  unfold loaded_into. rewrite lookup_union, lookup_fmap.
  destruct (siblings l !! x); destruct (g !! x); reflexivity.
Qed.

(** Equality of two namespaces built by inserts and by binding siblings:
    name by name. *)
Ltac same_namespace :=
  apply map_eq; intros x;
  unfold with_utils, with_metadata;
  try match goal with f : bool |- _ => destruct f end;
  repeat first [ rewrite lookup_insert | rewrite lookup_loaded_into ];
  repeat case_decide; try done;
  repeat match goal with
         | |- context [siblings ?l !! ?x] => destruct (siblings l !! x)
         end; done.

(** X1: running the initializer again on the namespace it has produced,
    as a reload of the package does, ends the same way and leaves that
    namespace as it is. *)
Theorem reload_is_idempotent (E : env) (g0 : gmap string value) :
  (import_package E (namespace (import_package E g0))).1
    = (import_package E g0).1 /\
  namespace (import_package E (namespace (import_package E g0)))
    = namespace (import_package E g0).
Proof.
  unfold namespace.
  destruct (run_cases E g0) as [HE|l what HE|l fresh m what HE Hh|l fresh m m' HE Hh H1
       |l fresh m m' what HE Hh H1|l fresh m m' v1 HE Hh H1 H2
       |l fresh m m' v1 what HE Hh H1 H2|l fresh m m' v1 v2 HE Hh H1 H2];
    cbn [fst snd globals];
    match goal with
    | |- context [import_package E ?g] => destruct (run_cases E g)
    end;
    same_load; try congruence; cbn [fst snd globals];
    repeat match goal with
           | Ha : handle_fromlist ?m _ = inl ?a,
             Hb : handle_fromlist ?m _ = inl ?b |- _ =>
               assert (b = a) as -> by congruence; clear Hb
           end;
    repeat match goal with
           | Ha : get_attr ?m ?k = Found ?a,
             Hb : get_attr ?m ?k = Found ?b |- _ =>
               assert (b = a) as -> by congruence; clear Hb
           end;
    (split; [try reflexivity; congruence |]);
    same_namespace.
Qed.

(** X2: a name that is neither one of the seven that the run of the
    initializer binds nor the name of a sibling that gets loaded while
    [utils] loads keeps the binding it had, or stays unbound, however the
    run ends. *)
Theorem other_names_untouched (E : env) (g0 : gmap string value)
    (x : string) :
  x ∉ bound_names ->
  x ∉ sibling_names E ->
  namespace (import_package E g0) !! x = g0 !! x.
Proof.
  unfold bound_names, sibling_names. intros Hx Hs.
  assert (x <> "__doc__" /\ x <> "__version__" /\ x <> "__author__" /\
          x <> "utils" /\ x <> "set_seed" /\ x <> "get_logger" /\
          x <> "__all__") as (? & ? & ? & ? & ? & ? & ?).
  { repeat split; intros ->; apply Hx; set_solver. }
  unfold namespace.
  destruct (run_cases E g0);
    match goal with HE : E "utils" = _ |- _ => rewrite HE in Hs end;
    try apply not_elem_of_dom in Hs;
    cbn [snd globals]; unfold with_utils;
    try match goal with f : bool |- _ => destruct f end;
    repeat (rewrite lookup_insert_ne by done);
    rewrite ?lookup_loaded_into, ?Hs;
    by apply metadata_other.
Qed.

Lemma other_names_untouched_witness :
  ("helper" ∉ bound_names) /\
  ("helper" ∉ sibling_names env_cached) /\
  namespace (import_package env_cached used_namespace) !! "helper"
  = used_namespace !! "helper".
Proof.
  assert (H : "helper" ∉ bound_names).
  { unfold bound_names. set_solver. }
  assert (Hs : "helper" ∉ sibling_names env_cached).
  { apply not_elem_of_dom. vm_compute. reflexivity. }
  split; [exact H |]. split; [exact Hs |].
  exact (other_names_untouched env_cached used_namespace "helper" H Hs).
Defined.

(** X3: after a successful import every name listed in [__all__] is
    bound in the namespace of the package, so that a star-import of the
    package finds each of them. *)
Theorem export_list_names_are_bound (E : env) (g0 : gmap string value) :
  succeeds (import_package E g0) ->
  exists items,
    namespace (import_package E g0) !! "__all__" = Some (VList items) /\
    forall v, v ∈ items ->
      exists x, v = VStr x /\ is_Some (namespace (import_package E g0) !! x).
Proof.
  unfold succeeds, namespace.
  destruct (run_cases E g0); cbn [fst snd globals]; try discriminate.
  intros _. exists [VStr "set_seed"; VStr "get_logger"].
  split; [apply lookup_insert_eq |].
  intros v Hv. rewrite !elem_of_cons, elem_of_nil in Hv.
  destruct Hv as [-> | [-> | []]]; eexists; (split; [reflexivity |]);
    own_lookup; eauto.
Qed.

Lemma export_list_names_are_bound_witness :
  succeeds (import_package env_ok ∅) /\
  exists items,
    namespace (import_package env_ok ∅) !! "__all__" = Some (VList items) /\
    forall v, v ∈ items ->
      exists x, v = VStr x /\
        is_Some (namespace (import_package env_ok ∅) !! x).
Proof.
  split; [vm_compute; reflexivity |].
  apply export_list_names_are_bound. vm_compute. reflexivity.
Defined.

(** X4: when [utils] cannot be resolved the import raises
    [ModuleNotFoundError] for [utils], and none of [utils], [set_seed],
    [get_logger], [__all__] is touched. *)
Theorem unresolved_raises_module_not_found (E : env)
    (g0 : gmap string value) :
  unresolved E ->
  (import_package E g0).1 = Raise (ModuleNotFoundError "utils") /\
  forall x, x ∈ ["utils"; "set_seed"; "get_logger"; "__all__"] ->
    namespace (import_package E g0) !! x = g0 !! x.
Proof.
  unfold unresolved, namespace. intros HE.
  destruct (run_cases E g0); same_load.
  split; [reflexivity |].
  intros x Hx. rewrite !elem_of_cons, elem_of_nil in Hx.
  destruct Hx as [-> | [-> | [-> | [-> | []]]]]; own_lookup; reflexivity.
Qed.

Lemma unresolved_raises_module_not_found_witness :
  unresolved env_missing /\
  (import_package env_missing ∅).1 = Raise (ModuleNotFoundError "utils") /\
  forall x, x ∈ ["utils"; "set_seed"; "get_logger"; "__all__"] ->
    namespace (import_package env_missing ∅) !! x
    = (∅ : gmap string value) !! x.
Proof.
  assert (H : unresolved env_missing) by reflexivity.
  split; [exact H |].
  exact (unresolved_raises_module_not_found env_missing ∅ H).
Defined.



(** X9: the lines 1 to 6 of the file are its docstring, and every run
    binds [__doc__] to the text between the two triple quotes, replacing
    whatever [__doc__] held before. *)
Theorem docstring_is_bound (E : env) (g0 : gmap string value) :
  doc_text (take 6 (lines init_py)) = Some docstring /\
  namespace (import_package E g0) !! "__doc__" = Some (VStr docstring).
Proof.
  split; [vm_compute; reflexivity |].
  unfold namespace.
  destruct (run_cases E g0); own_lookup; reflexivity.
Qed.

End Spec.
